(** * The task-manager back end (backend/server.js): model and properties

    The Express application of [backend/server.js] is embedded as pure
    functions over an explicit world (the in-memory SQLite tables and the
    clock).  A route handler maps a request and a world to what the
    callbacks of the source do: the response sent with [res.status] and
    [res.json], or the exception that escapes a callback, together with
    the calls made to the libraries and the new world.

    The libraries the server calls (bcryptjs, jsonwebtoken, the SQL
    parser of sqlite3) are an interface, [Platform]; statements whose
    text is fixed in the source are given their meaning directly on the
    tables. *)

From Stdlib Require Import ZArith String Ascii List Bool Lia DecimalString.
From stdpp Require Import gmap strings.
Import ListNotations.
Set Warnings "-register-all".
Open Scope Z_scope.
Open Scope string_scope.

(** ** JavaScript values *)

(** The values that travel through request bodies, result rows and
    response bodies.  Numbers are the integral ones (row ids, flags,
    timestamps, status codes); an object keeps its fields in order. *)
Inductive jsval : Type :=
| JUndefined
| JNull
| JBool (b : bool)
| JNum (n : Z)
| JStr (s : string)
| JObj (fields : list (string * jsval))
| JArr (items : list jsval).

(** [o.k] for the property names the server reads: own fields of an
    object, [undefined] everywhere else. *)
Fixpoint lookup_field (k : string) (fields : list (string * jsval)) : jsval :=
  match fields with
  | [] => JUndefined
  | (k', v) :: rest => if String.eqb k k' then v else lookup_field k rest
  end.

Definition prop (o : jsval) (k : string) : jsval :=
  match o with
  | JObj fields => lookup_field k fields
  | _ => JUndefined
  end.

Definition keys (o : jsval) : list string :=
  match o with
  | JObj fields => map fst fields
  | _ => []
  end.

Definition has_field (o : jsval) (k : string) : bool :=
  existsb (String.eqb k) (keys o).

(** ToBoolean, as used by [!x] and [x || y]. *)
Definition truthy (v : jsval) : bool :=
  match v with
  | JUndefined | JNull => false
  | JBool b => b
  | JNum n => negb (Z.eqb n 0)
  | JStr s => negb (String.eqb s EmptyString)
  | JObj _ | JArr _ => true
  end.

Definition js_or (a b : jsval) : jsval := if truthy a then a else b.

Definition number_to_string (n : Z) : string :=
  NilZero.string_of_int (Z.to_int n).

Definition join_with (sep : string) (parts : list string) : string :=
  match parts with
  | [] => EmptyString
  | p :: ps => fold_left (fun acc s => acc +:+ sep +:+ s) ps p
  end.

(** ToString, as applied by a template literal [`${v}`]. *)
Fixpoint to_string (v : jsval) : string :=
  match v with
  | JUndefined => "undefined"
  | JNull => "null"
  | JBool true => "true"
  | JBool false => "false"
  | JNum n => number_to_string n
  | JStr s => s
  | JObj _ => "[object Object]"
  | JArr items =>
      join_with ","
        (map (fun x => match x with
                       | JUndefined | JNull => EmptyString
                       | _ => to_string x
                       end) items)
  end.

Definition typeof (v : jsval) : string :=
  match v with
  | JUndefined => "undefined"
  | JNull | JObj _ | JArr _ => "object"
  | JBool _ => "boolean"
  | JNum _ => "number"
  | JStr _ => "string"
  end.

(** An [Error] object: its message and its stack. *)
Record js_error : Type := mk_error { err_message : string; err_stack : string }.

(** ** Requests, responses, outcomes *)

(** [req.headers] (names in lower case, as Express gives them),
    [req.body] after [bodyParser.json()], or the error the parser passes
    to [next] on a body it cannot read. *)
Record request : Type := mk_request {
  req_headers : gmap string string;
  req_body : js_error + jsval
}.

Record response : Type := mk_response { status : Z; body : jsval }.

(** [res.json(v)]: status 200 unless [res.status] was called first. *)
Definition res_json (v : jsval) : response := {| status := 200; body := v |}.
Definition res_status_json (code : Z) (v : jsval) : response :=
  {| status := code; body := v |}.

(** What a request ends in: a response, or an exception thrown inside a
    database callback, which no middleware catches (nothing is sent). *)
Inductive outcome : Type :=
| Sent (r : response)
| Uncaught (e : string).

(** The library calls a handler makes, in order. *)
Inductive call : Type :=
| CallDbGet (sql : string)
| CallCompare (s hash : jsval)
| CallSign (payload : jsval) (key : string)
| ConsoleError (text : string).

(** ** The database *)

(** A row of [users]: the seed inserts text into every column. *)
Record user_row : Type := mk_user {
  u_id : Z; u_username : string; u_password : string;
  u_email : string; u_role : string
}.

(** A row of [tasks]: each column holds the value a SELECT hands back. *)
Record task_row : Type := mk_task {
  t_id : Z; t_user_id : jsval; t_title : jsval; t_description : jsval;
  t_completed : jsval; t_created_at : Z
}.

(** The two tables, with the AUTOINCREMENT counter of [tasks]. *)
Record database : Type := mk_db {
  users : list user_row;
  tasks : list task_row;
  tasks_seq : Z
}.

Record world : Type := mk_world { db : database; clock_ms : Z }.

(** ** The libraries *)

(** The declared types of the columns a request can write to
    (lines 37-44): [user_id INTEGER], [title TEXT], [description TEXT],
    [completed BOOLEAN]. *)
Inductive column_type : Type :=
| INTEGER
| TEXT
| BOOLEAN.

(** A signed token before its compact serialisation. *)
Record jwt : Type := mk_jwt {
  jwt_alg : string;
  jwt_claims : list (string * jsval);
  jwt_signature : string
}.

Class Platform : Type := {
  (** bcryptjs: does the plaintext match the stored hash (two strings)? *)
  bcrypt_compare : string -> string -> bool;
  (** the hash [bcrypt.hashSync('password123', 10)] drew at start-up *)
  seed_hash : string;
  seed_hash_ok : bcrypt_compare "password123" seed_hash = true;
  (** bcryptjs: the error [compareSync] throws on two strings, if any
      (a stored hash of 60 characters with a malformed salt part) *)
  bcrypt_throws : string -> string -> option string;
  seed_hash_valid : bcrypt_throws "password123" seed_hash = None;
  (** jsonwebtoken: HMAC-SHA256 of the claims under a key, and the
      compact form of a token *)
  hs256 : string -> list (string * jsval) -> string;
  jws_compact : jwt -> string;
  (** sqlite3: [db.get(sql, [])] for a statement given as text: the
      error, or the columns of the first row if there is one *)
  sqlite_get : string -> database -> js_error + option (list (string * jsval));
  (** sqlite3: the integer a text parameter stands for when it is
      compared with an INTEGER column, if any *)
  sqlite_integer_of_text : string -> option Z;
  (** sqlite3: the text of CURRENT_TIMESTAMP at a clock value *)
  sqlite_datetime : Z -> string;
  (** sqlite3: what a column of a declared type holds, as the value a
      later SELECT hands back, once an INSERT has bound a JavaScript
      value to it (the binding of the driver, then the affinity of the
      column) *)
  sqlite_stored : column_type -> jsval -> jsval
}.

(** What SQLite and its driver document about [sqlite_stored], on the
    values of this model: [undefined] and [null] are stored as NULL; a
    boolean is bound as the integer 1 or 0; an integer stays as it is in
    an INTEGER or BOOLEAN column and becomes its decimal text in a TEXT
    column; a text stays as it is in a TEXT column and, in an INTEGER or
    BOOLEAN column, becomes the integer it reads as. *)
Record storage_laws `{P : Platform} : Prop := {
  stored_undefined : forall ty, sqlite_stored ty JUndefined = JNull;
  stored_null : forall ty, sqlite_stored ty JNull = JNull;
  stored_integer : forall ty n,
    ty <> TEXT -> sqlite_stored ty (JNum n) = JNum n;
  stored_boolean : forall ty b,
    ty <> TEXT -> sqlite_stored ty (JBool b) = JNum (if b then 1 else 0);
  stored_numeric_text : forall ty s n,
    ty <> TEXT -> sqlite_integer_of_text s = Some n ->
    sqlite_stored ty (JStr s) = JNum n;
  stored_text : forall s, sqlite_stored TEXT (JStr s) = JStr s;
  stored_integer_as_text : forall n,
    - 2 ^ 63 <= n < 2 ^ 63 ->
    sqlite_stored TEXT (JNum n) = JStr (number_to_string n)
}.

(** ** Start-up *)

(** [process.env.NAME || fallback]: an unset or empty variable is falsy. *)
Definition env_or (v : option string) (fallback : string) : string :=
  match v with
  | Some s => if String.eqb s EmptyString then fallback else s
  | None => fallback
  end.

Definition env_value (v : option string) : jsval :=
  match v with
  | Some s => JStr s
  | None => JUndefined
  end.

Record config : Type := mk_config {
  PORT : jsval;
  JWT_SECRET : string;
  STRIPE_API_KEY : option string;
  environment : string
}.

(** Lines 9-13 and 202: the constants read from [process.env]. *)
Definition load_config (env : gmap string string) : config :=
  {| PORT := js_or (env_value (env !! "PORT")) (JNum 3001);
     JWT_SECRET := env_or (env !! "JWT_SECRET") "super-secret-key-12345";
     STRIPE_API_KEY := env !! "STRIPE_API_KEY";
     environment := env_or (env !! "NODE_ENV") "development" |}.

Inductive startup_result : Type :=
| Listening (cfg : config)
| Fatal (reason : string).

(** The module body up to [app.listen]: no branch of the source stops
    the process. *)
Definition startup (env : gmap string string) : startup_result :=
  Listening (load_config env).

Section Server.
Context `{P : Platform}.

(** [db.serialize] at start-up: the two tables and the sample users. *)
Definition seed_users : list user_row :=
  [ {| u_id := 1; u_username := "admin"; u_password := seed_hash;
       u_email := "admin@example.com"; u_role := "admin" |};
    {| u_id := 2; u_username := "user1"; u_password := seed_hash;
       u_email := "user1@example.com"; u_role := "user" |} ].

Definition initial_db : database :=
  {| users := seed_users; tasks := []; tasks_seq := 0 |}.

(** *** Statements with fixed text *)

(** [SELECT id, username, email, role FROM users] *)
Definition user_columns (u : user_row) : jsval :=
  JObj [ ("id", JNum (u_id u)); ("username", JStr (u_username u));
         ("email", JStr (u_email u)); ("role", JStr (u_role u)) ].

Definition db_all_users (d : database) : js_error + list jsval :=
  inr (map user_columns (users d)).

Definition rowid_matches (id : string) (rowid : Z) : bool :=
  match sqlite_integer_of_text id with
  | Some n => Z.eqb n rowid
  | None => false
  end.

(** [SELECT * FROM tasks WHERE id = ?] *)
Definition task_object (t : task_row) : jsval :=
  JObj [ ("id", JNum (t_id t)); ("user_id", t_user_id t);
         ("title", t_title t); ("description", t_description t);
         ("completed", t_completed t);
         ("created_at", JStr (sqlite_datetime (t_created_at t))) ].

Definition db_get_task (id : string) (d : database) : js_error + option jsval :=
  inr (option_map task_object
         (find (fun t => rowid_matches id (t_id t)) (tasks d))).

(** [INSERT INTO tasks (user_id, title, description, completed)
    VALUES (?, ?, ?, ?)]: the new row id ([this.lastID]) and the table.
    Each column holds the bound value as its declared type stores it. *)
Definition db_run_insert_task (user_id title description completed : jsval)
    (now_ms : Z) (d : database) : js_error + (Z * database) :=
  let id := tasks_seq d + 1 in
  inr (id,
       {| users := users d;
          tasks := (tasks d ++
                    [ {| t_id := id;
                         t_user_id := sqlite_stored INTEGER user_id;
                         t_title := sqlite_stored TEXT title;
                         t_description := sqlite_stored TEXT description;
                         t_completed := sqlite_stored BOOLEAN completed;
                         t_created_at := now_ms / 1000 |} ])%list;
          tasks_seq := id |}).

(** [DELETE FROM users WHERE id = ?] *)
Definition db_run_delete_user (id : string) (d : database) : js_error + database :=
  inr {| users := filter (fun u => negb (rowid_matches id (u_id u))) (users d);
         tasks := tasks d;
         tasks_seq := tasks_seq d |}.

(** *** bcryptjs and jsonwebtoken *)

(** [bcrypt.compareSync(s, hash)]: throws unless both are strings, and
    on the two strings for which the library itself throws. *)
Definition compareSync (s hash : jsval) : string + bool :=
  match s, hash with
  | JStr plain, JStr h =>
      match bcrypt_throws plain h with
      | Some thrown => inl thrown
      | None => inr (bcrypt_compare plain h)
      end
  | _, _ => inl ("Illegal arguments: " +:+ typeof s +:+ ", " +:+ typeof hash)
  end.

(** ['24h'] in seconds. *)
Definition expiresIn : Z := 24 * 60 * 60.

(** [jwt.sign(payload, key, { expiresIn })] at a clock value: [iat] is
    the clock in whole seconds, [exp] is [iat] plus the span. *)
Definition issue_token (payload : list (string * jsval)) (key : string)
    (span now_ms : Z) : jwt :=
  let iat := now_ms / 1000 in
  let claims := (payload ++ [ ("iat", JNum iat); ("exp", JNum (iat + span)) ])%list in
  {| jwt_alg := "HS256"; jwt_claims := claims;
     jwt_signature := hs256 key claims |}.

Definition jwt_sign (payload : list (string * jsval)) (key : string)
    (span now_ms : Z) : string :=
  jws_compact (issue_token payload key span now_ms).

(** *** Route handlers *)

Record result : Type := mk_result {
  out : outcome;
  calls : list call;
  after : world
}.

Definition invalid_credentials : response :=
  res_status_json 401 (JObj [ ("error", JStr "Invalid credentials") ]).

Definition login_query (username : jsval) : string :=
  "SELECT * FROM users WHERE username = '" +:+ to_string username +:+ "'".

Definition login_payload (user : jsval) : list (string * jsval) :=
  [ ("id", prop user "id"); ("username", prop user "username");
    ("role", prop user "role") ].

(** The body of the successful login response, lines 78-87. *)
Definition login_success (token : string) (user : jsval) : response :=
  res_json
    (JObj [ ("token", JStr token);
            ("user",
             JObj [ ("id", prop user "id");
                    ("username", prop user "username");
                    ("email", prop user "email");
                    ("role", prop user "role");
                    ("password", prop user "password") ]) ]).

(** [app.post('/api/login', ...)], lines 54-92. *)
Definition post_login (cfg : config) (reqbody : jsval) (w : world) : result :=
  let username := prop reqbody "username" in
  let password := prop reqbody "password" in
  let query := login_query username in
  match sqlite_get query (db w) with
  | inl err =>
      {| out := Sent (res_status_json 500 (JObj [ ("error", JStr "Database error") ]));
         calls := [ CallDbGet query ]; after := w |}
  | inr None =>
      {| out := Sent invalid_credentials;
         calls := [ CallDbGet query ]; after := w |}
  | inr (Some row) =>
      let user := JObj row in
      match compareSync password (prop user "password") with
      | inl thrown =>
          {| out := Uncaught thrown;
             calls := [ CallDbGet query; CallCompare password (prop user "password") ];
             after := w |}
      | inr true =>
          let token :=
            jwt_sign (login_payload user) (JWT_SECRET cfg) expiresIn (clock_ms w) in
          {| out := Sent (login_success token user);
             calls := [ CallDbGet query;
                        CallCompare password (prop user "password");
                        CallSign (JObj (login_payload user)) (JWT_SECRET cfg) ];
             after := w |}
      | inr false =>
          {| out := Sent invalid_credentials;
             calls := [ CallDbGet query; CallCompare password (prop user "password") ];
             after := w |}
      end
  end.

Definition error_body (message : string) : jsval :=
  JObj [ ("error", JStr message) ].

(** [app.get('/api/users', ...)], lines 95-103. *)
Definition get_users (w : world) : result :=
  match db_all_users (db w) with
  | inl err =>
      {| out := Sent (res_status_json 500 (error_body (err_message err)));
         calls := []; after := w |}
  | inr rows => {| out := Sent (res_json (JArr rows)); calls := []; after := w |}
  end.

(** [app.get('/api/tasks/:id', ...)], lines 121-134. *)
Definition get_task (id : string) (w : world) : result :=
  match db_get_task id (db w) with
  | inl err =>
      {| out := Sent (res_status_json 500 (error_body (err_message err)));
         calls := []; after := w |}
  | inr None =>
      {| out := Sent (res_status_json 404 (error_body "Task not found"));
         calls := []; after := w |}
  | inr (Some task) => {| out := Sent (res_json task); calls := []; after := w |}
  end.

(** [app.post('/api/tasks', ...)], lines 137-151. *)
Definition post_tasks (reqbody : jsval) (w : world) : result :=
  let user_id := prop reqbody "user_id" in
  let title := prop reqbody "title" in
  let description := prop reqbody "description" in
  let completed := prop reqbody "completed" in
  match db_run_insert_task user_id title description (js_or completed (JNum 0))
          (clock_ms w) (db w) with
  | inl err =>
      {| out := Sent (res_status_json 500 (error_body (err_message err)));
         calls := []; after := w |}
  | inr (lastID, d') =>
      {| out := Sent (res_json (JObj [ ("id", JNum lastID);
                                       ("message", JStr "Task created") ]));
         calls := [];
         after := {| db := d'; clock_ms := clock_ms w |} |}
  end.

(** [app.get('/api/admin/delete-user/:id', ...)], lines 174-184. *)
Definition get_admin_delete_user (id : string) (w : world) : result :=
  match db_run_delete_user id (db w) with
  | inl err =>
      {| out := Sent (res_status_json 500 (error_body (err_message err)));
         calls := []; after := w |}
  | inr d' =>
      {| out := Sent (res_json (JObj [ ("message", JStr "User deleted") ]));
         calls := [];
         after := {| db := d'; clock_ms := clock_ms w |} |}
  end.

(** The error-handling middleware, lines 192-198. *)
Definition error_middleware (err : js_error) (w : world) : result :=
  {| out := Sent (res_status_json 500
                    (JObj [ ("error", JStr (err_message err));
                            ("stack", JStr (err_stack err)) ]));
     calls := [ ConsoleError (err_stack err) ];
     after := w |}.

(** *** The application *)

(** The routes of the source that this development covers (search,
    export, upload-xml and health are left out). *)
Inductive endpoint : Type :=
| PostLogin
| GetUsers
| GetTask (id : string)
| PostTasks
| GetAdminDeleteUser (id : string).

(** The middleware chain: the body parser first (an unreadable body goes
    to the error middleware), then the route's handler.  No middleware
    and no handler reads [req.headers]. *)
Definition app (cfg : config) (ep : endpoint) (req : request) (w : world) : result :=
  match req_body req with
  | inl err => error_middleware err w
  | inr reqbody =>
      match ep with
      | PostLogin => post_login cfg reqbody w
      | GetUsers => get_users w
      | GetTask id => get_task id w
      | PostTasks => post_tasks reqbody w
      | GetAdminDeleteUser id => get_admin_delete_user id w
      end
  end.

End Server.

(** ** A reference platform

    An executable stand-in for the libraries, used to run the handlers on
    concrete requests.  Hashing and signing are replaced by tagging; the
    SQL engine reads statements of the form
    [SELECT * FROM users WHERE a = b OR c = d ...] with text literals
    (['] doubled inside), column names and [--] comments, and reports
    any other text as a syntax error. *)
Module Reference.

Definition hash_of (plain : string) : string := "$2a$10$ref$" +:+ plain.

Definition compare (plain hash : string) : bool := String.eqb hash (hash_of plain).

Definition render_claims (claims : list (string * jsval)) : string :=
  join_with ","
    (map (fun kv : string * jsval => fst kv +:+ ":" +:+ to_string (snd kv)) claims).

Definition hmac (key : string) (claims : list (string * jsval)) : string :=
  "hs256[" +:+ key +:+ "|" +:+ render_claims claims +:+ "]".

Definition compact (t : jwt) : string :=
  jwt_alg t +:+ "." +:+ render_claims (jwt_claims t) +:+ "." +:+ jwt_signature t.

(** *** Numbers and dates *)

Definition digit_value (c : ascii) : option Z :=
  let n := Z.of_nat (nat_of_ascii c) in
  if (48 <=? n)%Z && (n <=? 57)%Z then Some (n - 48) else None.

Fixpoint digits_value (acc : Z) (cs : list ascii) : option Z :=
  match cs with
  | [] => Some acc
  | c :: rest =>
      match digit_value c with
      | Some d => digits_value (10 * acc + d) rest
      | None => None
      end
  end.

(** Text that is an optional [-] and at least one digit. *)
Definition integer_of_text (s : string) : option Z :=
  match list_ascii_of_string s with
  | [] => None
  | c :: rest =>
      if Ascii.eqb c "-"
      then match rest with
           | [] => None
           | _ => option_map Z.opp (digits_value 0 rest)
           end
      else digits_value 0 (c :: rest)
  end.

Definition pad2 (n : Z) : string :=
  if (n <? 10)%Z then "0" +:+ number_to_string n else number_to_string n.

(** [YYYY-MM-DD HH:MM:SS] (UTC) of a number of seconds since the epoch. *)
Definition datetime (secs : Z) : string :=
  let days := secs / 86400 in
  let rest := secs mod 86400 in
  let z := days + 719468 in
  let era := z / 146097 in
  let doe := z - era * 146097 in
  let yoe := (doe - doe / 1460 + doe / 36524 - doe / 146096) / 365 in
  let doy := doe - (365 * yoe + yoe / 4 - yoe / 100) in
  let mp := (5 * doy + 2) / 153 in
  let d := doy - (153 * mp + 2) / 5 + 1 in
  let m := if (mp <? 10)%Z then mp + 3 else mp - 9 in
  let y := yoe + era * 400 + (if (m <=? 2)%Z then 1 else 0) in
  number_to_string y +:+ "-" +:+ pad2 m +:+ "-" +:+ pad2 d +:+ " " +:+
  pad2 (rest / 3600) +:+ ":" +:+ pad2 (rest mod 3600 / 60) +:+ ":" +:+
  pad2 (rest mod 60).

(** *** The SQL fragment *)

Inductive token : Type :=
| TText (s : string)
| TName (s : string)
| TEquals
| TStar.

Inductive lex_state : Type :=
| LIdle
| LText (buf : list ascii)
| LTextQuote (buf : list ascii)
| LName (buf : list ascii)
| LDash
| LComment.

Definition is_space (c : ascii) : bool :=
  let n := nat_of_ascii c in
  (n =? 32)%nat || (n =? 9)%nat || (n =? 10)%nat || (n =? 13)%nat.

Definition is_name_char (c : ascii) : bool :=
  let n := nat_of_ascii c in
  ((65 <=? n)%nat && (n <=? 90)%nat) || ((97 <=? n)%nat && (n <=? 122)%nat)
  || ((48 <=? n)%nat && (n <=? 57)%nat) || (n =? 95)%nat.

Definition lower (c : ascii) : ascii :=
  let n := nat_of_ascii c in
  if ((65 <=? n)%nat && (n <=? 90)%nat) then ascii_of_nat (n + 32) else c.

Definition text_of (buf : list ascii) : string := string_of_list_ascii (rev buf).

(** Names and keywords are case-insensitive: kept in lower case. *)
Definition name_of (buf : list ascii) : string :=
  string_of_list_ascii (map lower (rev buf)).

Definition idle (c : ascii) : option (list token * lex_state) :=
  if Ascii.eqb c "'" then Some ([], LText [])
  else if is_space c then Some ([], LIdle)
  else if Ascii.eqb c "=" then Some ([TEquals], LIdle)
  else if Ascii.eqb c "*" then Some ([TStar], LIdle)
  else if Ascii.eqb c "-" then Some ([], LDash)
  else if is_name_char c then Some ([], LName [c])
  else None.

Definition step (st : lex_state) (c : ascii) : option (list token * lex_state) :=
  match st with
  | LIdle => idle c
  | LText buf =>
      if Ascii.eqb c "'" then Some ([], LTextQuote buf) else Some ([], LText (c :: buf))
  | LTextQuote buf =>
      if Ascii.eqb c "'" then Some ([], LText (c :: buf))
      else match idle c with
           | Some (toks, st') => Some (TText (text_of buf) :: toks, st')
           | None => None
           end
  | LName buf =>
      if is_name_char c then Some ([], LName (c :: buf))
      else match idle c with
           | Some (toks, st') => Some (TName (name_of buf) :: toks, st')
           | None => None
           end
  | LDash => if Ascii.eqb c "-" then Some ([], LComment) else None
  | LComment =>
      if (nat_of_ascii c =? 10)%nat then Some ([], LIdle) else Some ([], LComment)
  end.

Definition finish (st : lex_state) : option (list token) :=
  match st with
  | LIdle | LComment => Some []
  | LText _ | LDash => None
  | LTextQuote buf => Some [TText (text_of buf)]
  | LName buf => Some [TName (name_of buf)]
  end.

Fixpoint lex (st : lex_state) (cs : list ascii) : option (list token) :=
  match cs with
  | [] => finish st
  | c :: rest =>
      match step st c with
      | Some (toks, st') => option_map (List.app toks) (lex st' rest)
      | None => None
      end
  end.

Inductive operand : Type :=
| OText (s : string)
| OColumn (name : string).

Definition operand_of (t : token) : option operand :=
  match t with
  | TText s => Some (OText s)
  | TName n =>
      if existsb (String.eqb n) ["id"; "username"; "password"; "email"; "role"]
      then Some (OColumn n) else None
  | _ => None
  end.

(** [a = b OR c = d OR ...] *)
Fixpoint parse_where (ts : list token) : option (list (operand * operand)) :=
  match ts with
  | a :: TEquals :: b :: rest =>
      match operand_of a, operand_of b with
      | Some x, Some y =>
          match rest with
          | [] => Some [(x, y)]
          | TName kw :: rest' =>
              if String.eqb kw "or"
              then option_map (cons (x, y)) (parse_where rest')
              else None
          | _ => None
          end
      | _, _ => None
      end
  | _ => None
  end.

Definition parse_select (ts : list token) : option (list (operand * operand)) :=
  match ts with
  | TName s :: TStar :: TName f :: TName t :: TName w :: cond =>
      if String.eqb s "select" && String.eqb f "from" && String.eqb t "users"
         && String.eqb w "where"
      then parse_where cond else None
  | _ => None
  end.

(** A column of a row: INTEGER for [id], TEXT for the others. *)
Definition column (name : string) (u : user_row) : Z + string :=
  if String.eqb name "id" then inl (u_id u)
  else if String.eqb name "username" then inr (u_username u)
  else if String.eqb name "password" then inr (u_password u)
  else if String.eqb name "email" then inr (u_email u)
  else inr (u_role u).

Definition int_text_equal (n : Z) (s : string) : bool :=
  match integer_of_text s with
  | Some m => Z.eqb n m
  | None => false
  end.

Definition equal_on (u : user_row) (c : operand * operand) : bool :=
  match c with
  | (OText s, OText t) => String.eqb s t
  | (OText s, OColumn n) | (OColumn n, OText s) =>
      match column n u with
      | inl i => int_text_equal i s
      | inr t => String.eqb t s
      end
  | (OColumn n, OColumn m) =>
      match column n u, column m u with
      | inl i, inl j => Z.eqb i j
      | inr s, inr t => String.eqb s t
      | inl i, inr s | inr s, inl i => int_text_equal i s
      end
  end.

(** [SELECT *] hands every column to the callback. *)
Definition user_fields (u : user_row) : list (string * jsval) :=
  [ ("id", JNum (u_id u)); ("username", JStr (u_username u));
    ("password", JStr (u_password u)); ("email", JStr (u_email u));
    ("role", JStr (u_role u)) ].

Definition get (sql : string) (d : database)
    : js_error + option (list (string * jsval)) :=
  match lex LIdle (list_ascii_of_string sql) with
  | None =>
      inl {| err_message := "SQLITE_ERROR: unrecognized token";
             err_stack := "Error: SQLITE_ERROR: unrecognized token" |}
  | Some ts =>
      match parse_select ts with
      | None =>
          inl {| err_message := "SQLITE_ERROR: syntax error";
                 err_stack := "Error: SQLITE_ERROR: syntax error" |}
      | Some cond =>
          inr (option_map user_fields
                 (find (fun u => existsb (equal_on u) cond) (users d)))
      end
  end.

(** The driver's binding of a value to a parameter. *)
Definition bound (v : jsval) : jsval :=
  match v with
  | JUndefined => JNull
  | JBool b => JNum (if b then 1 else 0)
  | JObj _ | JArr _ => JStr (to_string v)
  | _ => v
  end.

(** The affinity of the column, on the bound value; a text is read as
    a number by [integer_of_text] alone. *)
Definition stored (ty : column_type) (v : jsval) : jsval :=
  match ty, bound v with
  | TEXT, JNum n => JStr (number_to_string n)
  | TEXT, b => b
  | _, JStr s =>
      match integer_of_text s with
      | Some n => JNum n
      | None => JStr s
      end
  | _, b => b
  end.

Definition platform : Platform :=
  {| bcrypt_compare := compare;
     seed_hash := hash_of "password123";
     seed_hash_ok := eq_refl;
     bcrypt_throws := fun _ _ => None;
     seed_hash_valid := eq_refl;
     hs256 := hmac;
     jws_compact := compact;
     sqlite_get := get;
     sqlite_integer_of_text := integer_of_text;
     sqlite_datetime := datetime;
     sqlite_stored := stored |}.

End Reference.

(** ** Concrete requests and worlds *)
Module Scenario.

(** The configuration of a process started with an empty environment. *)
Definition cfg : config := load_config ∅.

Definition production_env : gmap string string := {[ "NODE_ENV" := "production" ]}.

(** The seeded database, at some instant. *)
Definition world0 : world :=
  {| db := @initial_db Reference.platform; clock_ms := 1700000000123 |}.

Definition credentials (username password : string) : jsval :=
  JObj [ ("username", JStr username); ("password", JStr password) ].

Definition empty_body : jsval := JObj [].

(** A request without an [Authorization] header. *)
Definition bare (reqbody : jsval) : request :=
  {| req_headers := ∅; req_body := inr reqbody |}.

Definition with_bearer (token : string) (reqbody : jsval) : request :=
  {| req_headers := {[ "authorization" := "Bearer " +:+ token ]};
     req_body := inr reqbody |}.

Definition admin_row : list (string * jsval) := Reference.user_fields
  {| u_id := 1; u_username := "admin"; u_password := Reference.hash_of "password123";
     u_email := "admin@example.com"; u_role := "admin" |}.

Definition user1_row : list (string * jsval) := Reference.user_fields
  {| u_id := 2; u_username := "user1"; u_password := Reference.hash_of "password123";
     u_email := "user1@example.com"; u_role := "user" |}.

(** The token [user1] is given by a login at [world0]. *)
Definition user1_token : jwt :=
  @issue_token Reference.platform (login_payload (JObj user1_row))
    (JWT_SECRET cfg) expiresIn (clock_ms world0).

(** The world after the admin (id 1) has created a task. *)
Definition admin_task_body : jsval :=
  JObj [ ("user_id", JNum 1); ("title", JStr "rotate keys") ].

Definition world1 : world :=
  after (@post_tasks Reference.platform admin_task_body world0).

Definition admin_task : task_row :=
  {| t_id := 1; t_user_id := JNum 1; t_title := JStr "rotate keys";
     t_description := JNull; t_completed := JNum 0;
     t_created_at := 1700000000 |}.

(** The same world one second past the expiry of [user1_token]. *)
Definition world_late : world :=
  {| db := db world0; clock_ms := clock_ms world0 + (expiresIn + 1) * 1000 |}.

(** What the login of the seeded admin is answered. *)
Definition admin_login_response : response :=
  login_success
    (@jwt_sign Reference.platform (login_payload (JObj admin_row))
       (JWT_SECRET cfg) expiresIn (clock_ms world0))
    (JObj admin_row).

(** The error [bodyParser.json()] raises on the body [{]. *)
Definition malformed : js_error :=
  {| err_message := "Unexpected end of JSON input";
     err_stack := "SyntaxError: Unexpected end of JSON input at JSON.parse (<anonymous>) at parse (/app/backend/node_modules/body-parser/lib/types/json.js:89:19)" |}.

End Scenario.

(** ** The whole server

    The four routes left aside above, the host they need, and the server
    as a machine that takes requests one after the other. *)

(** What the remaining routes use of their libraries. *)
Class Host : Type := {
  (** the state of the machine outside the process (its files) *)
  host_state : Type;
  (** sqlite3: [db.all(sql, [])] for a statement given as text, the
      error or the columns of every row found *)
  sqlite_all : string -> database -> js_error + list (list (string * jsval));
  (** child_process: [exec(command, callback)], the error handed to the
      callback, if any, and the state the shell leaves *)
  child_exec : string -> host_state -> option js_error * host_state;
  (** [new Date().toISOString()] at a clock value *)
  toISOString : Z -> string
}.

Definition double_quote : string := String "034"%char EmptyString.

Section Service.
Context `{P : Platform} `{H : Host}.

(** The process and the machine it runs on. *)
Record machine : Type := mk_machine { m_world : world; m_host : host_state }.

Definition search_query (query : jsval) : string :=
  "SELECT * FROM tasks WHERE title LIKE '%" +:+ to_string query +:+
  "%' OR description LIKE '%" +:+ to_string query +:+ "%'".

(** [app.get('/api/tasks/search', ...)], lines 106-118; [query] is
    [req.query.query]. *)
Definition get_tasks_search (query : jsval) (m : machine) : outcome * machine :=
  match sqlite_all (search_query query) (db (m_world m)) with
  | inl err => (Sent (res_status_json 500 (error_body (err_message err))), m)
  | inr found => (Sent (res_json (JArr (map JObj found))), m)
  end.

Definition export_command (filename : jsval) : string :=
  "echo " +:+ double_quote +:+ "Export complete" +:+ double_quote +:+ " > " +:+
  to_string filename.

(** [app.post('/api/export', ...)], lines 154-165. *)
Definition post_export (reqbody : jsval) (m : machine) : outcome * machine :=
  let filename := prop reqbody "filename" in
  match child_exec (export_command filename) (m_host m) with
  | (Some error, h') =>
      (Sent (res_status_json 500 (error_body (err_message error))),
       {| m_world := m_world m; m_host := h' |})
  | (None, h') =>
      (Sent (res_json (JObj [ ("message", JStr "Export completed");
                              ("filename", filename) ])),
       {| m_world := m_world m; m_host := h' |})
  end.

(** [app.post('/api/upload-xml', ...)], lines 168-171. *)
Definition post_upload_xml (m : machine) : outcome * machine :=
  (Sent (res_json (JObj [ ("message",
                           JStr "XML processing endpoint (vulnerable to XXE)") ])),
   m).

(** [app.get('/health', ...)], lines 187-189. *)
Definition get_health (m : machine) : outcome * machine :=
  (Sent (res_json (JObj [ ("status", JStr "ok");
                          ("timestamp", JStr (toISOString (clock_ms (m_world m)))) ])),
   m).

(** Every route of the source. *)
Inductive route : Type :=
| Covered (ep : endpoint)
| GetTasksSearch (query : jsval)
| PostExport
| PostUploadXml
| GetHealth.

(** One request through the middleware chain. *)
Definition serve (cfg : config) (r : route) (req : request) (m : machine)
    : outcome * machine :=
  match r with
  | Covered ep =>
      let res := app cfg ep req (m_world m) in
      (out res, {| m_world := after res; m_host := m_host m |})
  | _ =>
      match req_body req with
      | inl err => (out (error_middleware err (m_world m)), m)
      | inr reqbody =>
          match r with
          | GetTasksSearch query => get_tasks_search query m
          | PostExport => post_export reqbody m
          | PostUploadXml => post_upload_xml m
          | _ => get_health m
          end
      end
  end.

(** A request, with the instant at which it is handled. *)
Record arrival : Type := mk_arrival {
  at_ms : Z;
  on : route;
  carrying : request
}.

(** The request is handled at its instant. *)
Definition arrive (cfg : config) (m : machine) (a : arrival) : outcome * machine :=
  serve cfg (on a) (carrying a)
    {| m_world := {| db := db (m_world m); clock_ms := at_ms a |};
       m_host := m_host m |}.

(** The machine after a sequence of requests, and the exception that
    ended the process if one escaped a callback: the requests after it
    are not handled. *)
Fixpoint run (cfg : config) (m : machine) (arrivals : list arrival)
    : machine * option string :=
  match arrivals with
  | [] => (m, None)
  | a :: rest =>
      match arrive cfg m a with
      | (Sent _, m') => run cfg m' rest
      | (Uncaught e, m') => (m', Some e)
      end
  end.

(** The machine when the process has started, on a given host. *)
Definition boot (h : host_state) (now_ms : Z) : machine :=
  {| m_world := {| db := initial_db; clock_ms := now_ms |}; m_host := h |}.

(** The rows of [tasks] carry the ids [from], [from + 1], ... in order. *)
Fixpoint numbered (from : Z) (ts : list task_row) : bool :=
  match ts with
  | [] => true
  | t :: rest => Z.eqb (t_id t) from && numbered (from + 1) rest
  end.

(** The ids of [tasks] are 1, 2, ..., n and the counter stands at n. *)
Definition tasks_numbered (d : database) : bool :=
  numbered 1 (tasks d) && Z.eqb (tasks_seq d) (Z.of_nat (length (tasks d))).

(** The row the task creation route stores for a body, in a world. *)
Definition task_of_body (reqbody : jsval) (w : world) : task_row :=
  {| t_id := tasks_seq (db w) + 1;
     t_user_id := sqlite_stored INTEGER (prop reqbody "user_id");
     t_title := sqlite_stored TEXT (prop reqbody "title");
     t_description := sqlite_stored TEXT (prop reqbody "description");
     t_completed := sqlite_stored BOOLEAN (js_or (prop reqbody "completed") (JNum 0));
     t_created_at := clock_ms w / 1000 |}.

(** The routes that write to the database. *)
Definition writes (r : route) : bool :=
  match r with
  | Covered PostTasks | Covered (GetAdminDeleteUser _) => true
  | _ => false
  end.

End Service.

(** A host for running the handlers: the files are a list of names
    written, the shell accepts every command and records its line, the
    search finds nothing. *)
Module ReferenceHost.

Definition host : Host :=
  {| host_state := list string;
     sqlite_all := fun _ _ => inr [];
     child_exec := fun command lines => (None, (lines ++ [command])%list);
     toISOString := fun ms => Reference.datetime (ms / 1000) |}.

End ReferenceHost.

(** ** Properties of the login route *)

Section Login.
Context `{P : Platform}.
Variable cfg : config.

(** The three ways the callback of [db.get] continues. *)
Lemma post_login_absent reqbody w :
  sqlite_get (login_query (prop reqbody "username")) (db w) = inr None ->
  post_login cfg reqbody w =
  {| out := Sent invalid_credentials;
     calls := [ CallDbGet (login_query (prop reqbody "username")) ];
     after := w |}.
Proof. intros E. unfold post_login. now rewrite E. Qed.

Lemma post_login_mismatch reqbody w row :
  sqlite_get (login_query (prop reqbody "username")) (db w) = inr (Some row) ->
  compareSync (prop reqbody "password") (prop (JObj row) "password") = inr false ->
  post_login cfg reqbody w =
  {| out := Sent invalid_credentials;
     calls := [ CallDbGet (login_query (prop reqbody "username"));
                CallCompare (prop reqbody "password") (prop (JObj row) "password") ];
     after := w |}.
Proof. intros E C. unfold post_login. now rewrite E, C. Qed.

Lemma post_login_match reqbody w row :
  sqlite_get (login_query (prop reqbody "username")) (db w) = inr (Some row) ->
  compareSync (prop reqbody "password") (prop (JObj row) "password") = inr true ->
  out (post_login cfg reqbody w) =
  Sent (login_success
          (jwt_sign (login_payload (JObj row)) (JWT_SECRET cfg) expiresIn (clock_ms w))
          (JObj row)).
Proof. intros E C. unfold post_login. now rewrite E, C. Qed.

(** A 200 from the login route comes from the matching branch. *)
Lemma post_login_200 reqbody w r :
  out (post_login cfg reqbody w) = Sent r -> status r = 200 ->
  exists row,
    sqlite_get (login_query (prop reqbody "username")) (db w) = inr (Some row) /\
    compareSync (prop reqbody "password") (prop (JObj row) "password") = inr true /\
    r = login_success
          (jwt_sign (login_payload (JObj row)) (JWT_SECRET cfg) expiresIn (clock_ms w))
          (JObj row).
Proof.
  unfold post_login.
  destruct (sqlite_get _ _) as [e | [row | ]] eqn:E; simpl.
  - intros H; inversion H; subst; simpl; discriminate.
  - destruct (compareSync _ _) as [thrown | [ | ]] eqn:C; simpl;
      intros H; inversion H; subst; simpl; try discriminate.
    intros _. exists row. repeat split; assumption.
  - intros H; inversion H; subst; simpl; discriminate.
Qed.

(** The login route never changes the world. *)
Lemma post_login_after reqbody w : after (post_login cfg reqbody w) = w.
Proof.
  unfold post_login.
  destruct (sqlite_get _ _) as [e | [row | ]]; try reflexivity.
  destruct (compareSync _ _) as [thrown | [ | ]]; reflexivity.
Qed.

(** The token is issued for whatever row the engine hands back: the row
    is not compared with the submitted username. *)
Lemma post_login_trusts_row reqbody w row plain h :
  sqlite_get (login_query (prop reqbody "username")) (db w) = inr (Some row) ->
  prop reqbody "password" = JStr plain ->
  prop (JObj row) "password" = JStr h ->
  bcrypt_throws plain h = None ->
  bcrypt_compare plain h = true ->
  exists token, out (post_login cfg reqbody w) = Sent (login_success token (JObj row)).
Proof.
  intros E Hp Hh Ht Hc. eexists. apply post_login_match; [exact E | ].
  rewrite Hp, Hh. simpl. now rewrite Ht, Hc.
Qed.

(** On a mismatch for a row that was found, one hash comparison is made. *)
Lemma post_login_mismatch_compares reqbody w row :
  sqlite_get (login_query (prop reqbody "username")) (db w) = inr (Some row) ->
  compareSync (prop reqbody "password") (prop (JObj row) "password") = inr false ->
  In (CallCompare (prop reqbody "password") (prop (JObj row) "password"))
     (calls (post_login cfg reqbody w)).
Proof.
  intros E C. rewrite (post_login_mismatch _ _ _ E C). simpl. auto.
Qed.

(** The two branches that answer 401 send the same response. *)
Lemma login_rejections_agree reqbody1 w1 reqbody2 w2 row :
  sqlite_get (login_query (prop reqbody1 "username")) (db w1) = inr None ->
  sqlite_get (login_query (prop reqbody2 "username")) (db w2) = inr (Some row) ->
  compareSync (prop reqbody2 "password") (prop (JObj row) "password") = inr false ->
  out (post_login cfg reqbody1 w1) =
    Sent {| status := 401;
            body := JObj [ ("error", JStr "Invalid credentials") ] |} /\
  out (post_login cfg reqbody2 w2) = out (post_login cfg reqbody1 w1).
Proof.
  intros E1 E2 C.
  rewrite (post_login_absent _ _ E1), (post_login_mismatch _ _ _ E2 C).
  split; reflexivity.
Qed.

(** C8 (as the code behaves): when the query finds no user, the login
    route answers after the database call alone; no hash comparison is
    made on that path. *)
Theorem absent_user_skips_hash_comparison reqbody w :
  sqlite_get (login_query (prop reqbody "username")) (db w) = inr None ->
  calls (post_login cfg reqbody w) =
    [ CallDbGet (login_query (prop reqbody "username")) ] /\
  (forall s h, ~ In (CallCompare s h) (calls (post_login cfg reqbody w))).
Proof.
  intros E. rewrite (post_login_absent _ _ E). simpl. split; [reflexivity | ].
  intros s h [H | []]. discriminate H.
Qed.

(** C1 (as the code behaves): the object [user] of a successful login
    response has five fields, the fifth being [password] with the hash of
    the row; and a request whose body cannot be read is answered by the
    error middleware with the stack of the error. *)
Theorem responses_expose_hash_and_stack reqbody w r ep headers err :
  out (post_login cfg reqbody w) = Sent r -> status r = 200 ->
  (exists row,
     sqlite_get (login_query (prop reqbody "username")) (db w) = inr (Some row) /\
     keys (prop (body r) "user") = [ "id"; "username"; "email"; "role"; "password" ] /\
     prop (prop (body r) "user") "password" = prop (JObj row) "password") /\
  out (app cfg ep {| req_headers := headers; req_body := inl err |} w) =
    Sent {| status := 500;
            body := JObj [ ("error", JStr (err_message err));
                           ("stack", JStr (err_stack err)) ] |}.
Proof.
  intros H200 Hs.
  destruct (post_login_200 _ _ _ H200 Hs) as (row & E & _ & ->).
  split; [ | reflexivity ].
  exists row. split; [exact E | ]. split; reflexivity.
Qed.

End Login.

(** ** Properties of the other routes *)

Section Routes.
Context `{P : Platform}.
Variable cfg : config.

(** No route reads the headers: two requests with the same body are
    handled alike. *)
Lemma app_ignores_headers ep h1 h2 b w :
  app cfg ep {| req_headers := h1; req_body := b |} w =
  app cfg ep {| req_headers := h2; req_body := b |} w.
Proof. reflexivity. Qed.

(** Nor does any route read the clock to decide what to answer. *)
Lemma get_users_any_time d t1 t2 :
  out (get_users {| db := d; clock_ms := t1 |}) =
  out (get_users {| db := d; clock_ms := t2 |}).
Proof. reflexivity. Qed.

Lemma user_columns_keys u :
  keys (user_columns u) = [ "id"; "username"; "email"; "role" ].
Proof. reflexivity. Qed.

(** C2 (as the code behaves): a request without an [Authorization]
    header to the user listing or to the user deletion route is answered
    200 by the business handler, which lists, or deletes, the users. *)
Theorem protected_routes_served_without_token reqbody id w :
  out (app cfg GetUsers (Scenario.bare reqbody) w) =
    Sent {| status := 200; body := JArr (map user_columns (users (db w))) |} /\
  out (app cfg (GetAdminDeleteUser id) (Scenario.bare reqbody) w) =
    Sent {| status := 200; body := JObj [ ("message", JStr "User deleted") ] |} /\
  users (db (after (app cfg (GetAdminDeleteUser id) (Scenario.bare reqbody) w))) =
    filter (fun u => negb (rowid_matches id (u_id u))) (users (db w)).
Proof. repeat split. Qed.

(** C4 (as the code behaves): whatever the headers of the request, and so
    whoever the subject of its token is, a task that exists is sent back
    with status 200; ownership and role are not consulted. *)
Theorem task_served_without_ownership_check headers reqbody id w t :
  find (fun t => rowid_matches id (t_id t)) (tasks (db w)) = Some t ->
  out (app cfg (GetTask id) {| req_headers := headers; req_body := inr reqbody |} w) =
    Sent {| status := 200; body := task_object t |}.
Proof.
  intros F. unfold app; cbn [req_body].
  unfold get_task, db_get_task. rewrite F. reflexivity.
Qed.

(** C6 (as the code behaves): the token of a successful login carries
    the id, the username and the role of the row, [iat] and
    [exp = iat + 86400]; the server never verifies it: the user listing
    answers 200 to a request bearing it at every instant, past [exp]
    included. *)
Theorem token_expiry_never_checked reqbody w row :
  sqlite_get (login_query (prop reqbody "username")) (db w) = inr (Some row) ->
  compareSync (prop reqbody "password") (prop (JObj row) "password") = inr true ->
  let user := JObj row in
  let tok := issue_token (login_payload user) (JWT_SECRET cfg) expiresIn (clock_ms w) in
  out (post_login cfg reqbody w) = Sent (login_success (jws_compact tok) user) /\
  jwt_claims tok =
    [ ("id", prop user "id"); ("username", prop user "username");
      ("role", prop user "role");
      ("iat", JNum (clock_ms w / 1000));
      ("exp", JNum (clock_ms w / 1000 + 24 * 60 * 60)) ] /\
  (forall later reqbody',
     out (app cfg GetUsers (Scenario.with_bearer (jws_compact tok) reqbody')
            {| db := db w; clock_ms := later |}) =
       Sent {| status := 200; body := JArr (map user_columns (users (db w))) |}).
Proof.
  intros E C user tok. split; [ | split ].
  - exact (post_login_match cfg _ _ _ E C).
  - reflexivity.
  - intros later reqbody'. reflexivity.
Qed.

(** C9: the user listing answers with one record per row of [users];
    each record has exactly the fields id, username, email and role, with
    the values of the row, and no field [password]. *)
Theorem users_listing_projects_four_columns headers reqbody w :
  exists rows,
    out (app cfg GetUsers {| req_headers := headers; req_body := inr reqbody |} w) =
      Sent {| status := 200; body := JArr rows |} /\
    rows = map user_columns (users (db w)) /\
    Forall (fun r => keys r = [ "id"; "username"; "email"; "role" ] /\
                     has_field r "password" = false) rows.
Proof.
  exists (map user_columns (users (db w))).
  split; [reflexivity | split; [reflexivity | ] ].
  apply List.Forall_forall. intros r Hr. apply in_map_iff in Hr.
  destruct Hr as (u & <- & _). split; reflexivity.
Qed.

(** C10 (amended): the task creation route, whatever the headers,
    appends one row and answers 200 with the new id.  The [user_id] of
    the row is the [user_id] of the request body as the INTEGER column
    stores it: an integer as it is, a text that reads as an integer as
    that integer, a boolean as 1 or 0, an absent or null field as NULL.
    The [completed] of the row is what the BOOLEAN column stores of the
    [completed] of the body when that is truthy, and 0 whenever it is
    absent or falsy. *)
Theorem created_task_stores_body_user_id (L : storage_laws) headers reqbody w :
  let r := app cfg PostTasks {| req_headers := headers; req_body := inr reqbody |} w in
  exists t,
    tasks (db (after r)) = (tasks (db w) ++ [t])%list /\
    t_id t = tasks_seq (db w) + 1 /\
    t_user_id t = sqlite_stored INTEGER (prop reqbody "user_id") /\
    (forall n, prop reqbody "user_id" = JNum n -> t_user_id t = JNum n) /\
    (forall s n, prop reqbody "user_id" = JStr s ->
                 sqlite_integer_of_text s = Some n -> t_user_id t = JNum n) /\
    (forall b, prop reqbody "user_id" = JBool b ->
               t_user_id t = JNum (if b then 1 else 0)) /\
    (prop reqbody "user_id" = JUndefined \/ prop reqbody "user_id" = JNull ->
     t_user_id t = JNull) /\
    t_completed t = sqlite_stored BOOLEAN
                      (if truthy (prop reqbody "completed")
                       then prop reqbody "completed" else JNum 0) /\
    (truthy (prop reqbody "completed") = false -> t_completed t = JNum 0) /\
    out r = Sent {| status := 200;
                    body := JObj [ ("id", JNum (t_id t));
                                   ("message", JStr "Task created") ] |}.
Proof.
  simpl. eexists. split; [reflexivity | ]. simpl.
  split; [reflexivity | ]. split; [reflexivity | ].
  split; [intros n ->; now apply stored_integer | ].
  split; [intros s n -> Hs; now apply stored_numeric_text | ].
  split; [intros b ->; now apply stored_boolean | ].
  split; [intros [-> | ->]; [now apply stored_undefined | now apply stored_null] | ].
  split; [reflexivity | ].
  split; [ | reflexivity ].
  unfold js_or. intros ->. now apply stored_integer.
Qed.

End Routes.

(** ** Start-up *)

(** An explicit, non-empty key is the signing key. *)
Lemma startup_uses_explicit_key (env : gmap string string) k :
  env !! "JWT_SECRET" = Some k -> k <> EmptyString ->
  exists cfg, startup env = Listening cfg /\ JWT_SECRET cfg = k.
Proof.
  intros E Hk. eexists. split; [reflexivity | ]. simpl. rewrite E. simpl.
  destruct (String.eqb_spec k EmptyString) as [-> | _]; [contradiction | reflexivity].
Qed.

(** Without one (the variable is unset or empty) the key is the literal
    of the source, whatever the profile. *)
Lemma startup_falls_back_to_default_key (env : gmap string string) :
  env !! "JWT_SECRET" = None \/ env !! "JWT_SECRET" = Some EmptyString ->
  exists cfg,
    startup env = Listening cfg /\
    JWT_SECRET cfg = "super-secret-key-12345" /\
    environment cfg = env_or (env !! "NODE_ENV") "development".
Proof.
  intros H. eexists. split; [reflexivity | ]. simpl.
  split; [ | reflexivity ]. destruct H as [-> | ->]; reflexivity.
Qed.

(** C7 (amended): start-up never fails on account of the signing key: for
    every environment, whatever the profile and whether or not a key is
    given, the server listens; a non-empty key given in the environment
    is the signing key. *)
Theorem startup_listens_in_every_profile (env : gmap string string) :
  exists cfg,
    startup env = Listening cfg /\
    environment cfg = env_or (env !! "NODE_ENV") "development" /\
    (forall k, env !! "JWT_SECRET" = Some k -> k <> EmptyString ->
               JWT_SECRET cfg = k).
Proof.
  eexists. split; [reflexivity | ]. split; [reflexivity | ].
  intros k E Hk. simpl. rewrite E. simpl.
  destruct (String.eqb_spec k EmptyString) as [-> | _]; [contradiction | reflexivity].
Qed.

(** ** The handlers on concrete requests *)

Import Scenario.

(** C7 (as stated) fails: in the production profile, with no signing key
    in the environment, start-up does not fail and the signing key is the
    default of the source. *)
Lemma startup_production_without_key :
  production_env !! "NODE_ENV" = Some "production" /\
  production_env !! "JWT_SECRET" = None /\
  startup production_env =
    Listening {| PORT := JNum 3001; JWT_SECRET := "super-secret-key-12345";
                 STRIPE_API_KEY := None; environment := "production" |} /\
  ~ (exists reason, startup production_env = Fatal reason).
Proof.
  repeat split; try reflexivity.
  intros [reason H]. discriminate H.
Qed.

(** C3 (as the code behaves): on the seeded database, the username
    [admin' --] is the username of no row, yet the login with the
    password of the admin is answered 200 with a token for the admin; the
    username ['] is answered 500 "Database error"; and a body without
    password, for a username that exists, ends in an exception and no
    response. *)
Theorem login_injection_issues_token :
  (forall u, In u (users (db world0)) -> u_username u <> "admin' --") /\
  out (@post_login Reference.platform cfg (credentials "admin' --" "password123") world0) =
    Sent (login_success
            (@jwt_sign Reference.platform (login_payload (JObj admin_row))
               (JWT_SECRET cfg) expiresIn (clock_ms world0))
            (JObj admin_row)) /\
  out (@post_login Reference.platform cfg (credentials "'" "password123") world0) =
    Sent {| status := 500; body := JObj [ ("error", JStr "Database error") ] |} /\
  out (@post_login Reference.platform cfg (JObj [ ("username", JStr "admin") ]) world0) =
    Uncaught "Illegal arguments: undefined, string".
Proof.
  split; [ | split; [ | split ] ].
  - intros u [<- | [<- | []]]; discriminate.
  - vm_compute. reflexivity.
  - vm_compute. reflexivity.
  - vm_compute. reflexivity.
Qed.

(** C5 (as the code behaves): on the seeded database the usernames [']
    and [nobody] are those of no user, yet the first is answered 500
    "Database error" and the second 401; and with a null password the
    absent user is answered 401 while for the existing user an exception
    escapes and nothing is sent.  The causes of a failed login can be
    told apart. *)
Theorem login_failure_causes_are_distinguishable :
  (forall u, In u (users (db world0)) ->
             u_username u <> "'" /\ u_username u <> "nobody") /\
  out (@post_login Reference.platform cfg (credentials "'" "password123") world0) =
    Sent {| status := 500; body := JObj [ ("error", JStr "Database error") ] |} /\
  out (@post_login Reference.platform cfg (credentials "nobody" "password123") world0) =
    Sent {| status := 401; body := JObj [ ("error", JStr "Invalid credentials") ] |} /\
  out (@post_login Reference.platform cfg
         (JObj [ ("username", JStr "nobody"); ("password", JNull) ]) world0) =
    Sent {| status := 401; body := JObj [ ("error", JStr "Invalid credentials") ] |} /\
  out (@post_login Reference.platform cfg
         (JObj [ ("username", JStr "admin"); ("password", JNull) ]) world0) =
    Uncaught "Illegal arguments: object, string".
Proof.
  split; [ | repeat split ].
  intros u [<- | [<- | []]]; split; discriminate.
Qed.

(** The reference platform stores values as [storage_laws] says. *)
Lemma reference_storage_laws : @storage_laws Reference.platform.
Proof.
  constructor.
  - intros [ | | ]; reflexivity.
  - intros [ | | ]; reflexivity.
  - intros [ | | ] n Hty; [reflexivity | contradiction | reflexivity].
  - intros [ | | ] [ | ] Hty; try contradiction; reflexivity.
  - intros [ | | ] s n Hty Hs; try contradiction;
      cbn in *; unfold Reference.stored; cbn; now rewrite Hs.
  - reflexivity.
  - reflexivity.
Qed.

(** C10 (as stated) fails: the [user_id] submitted as the text [7] is
    stored as the integer 7, not as the value the caller supplied. *)
Lemma created_task_converts_body_user_id :
  exists t,
    tasks (db (after (@app Reference.platform cfg PostTasks
                        (bare (JObj [ ("user_id", JStr "7"); ("title", JStr "call") ]))
                        world0))) = [ t ] /\
    prop (JObj [ ("user_id", JStr "7"); ("title", JStr "call") ]) "user_id" = JStr "7" /\
    t_user_id t = JNum 7 /\
    t_user_id t <> JStr "7".
Proof.
  eexists. split; [reflexivity | ]. split; [reflexivity | ].
  split; [reflexivity | discriminate].
Qed.

Lemma created_task_stores_body_user_id_witness :
  @storage_laws Reference.platform /\
  exists t,
    tasks (db (after (@app Reference.platform cfg PostTasks
                        (with_bearer (Reference.compact user1_token)
                           (JObj [ ("user_id", JNum 1); ("title", JStr "audit");
                                   ("completed", JStr EmptyString) ]))
                        world1))) = (tasks (db world1) ++ [t])%list /\
    t_id t = 2 /\
    t_user_id t = JNum 1 /\
    t_completed t = JNum 0.
Proof.
  split; [exact reference_storage_laws | ].
  destruct (@created_task_stores_body_user_id Reference.platform cfg
              reference_storage_laws
              {[ "authorization" := "Bearer " +:+ Reference.compact user1_token ]}
              (JObj [ ("user_id", JNum 1); ("title", JStr "audit");
                      ("completed", JStr EmptyString) ])
              world1)
    as (t & Ht & Hid & _ & Hn & _ & _ & _ & _ & Hc & _).
  exists t. split; [exact Ht | ]. split; [exact Hid | ].
  split; [exact (Hn 1 eq_refl) | exact (Hc eq_refl)].
Defined.

Lemma absent_user_skips_hash_comparison_witness :
  @sqlite_get Reference.platform
    (login_query (prop (credentials "nobody" "password123") "username")) (db world0) = inr None /\
  calls (@post_login Reference.platform cfg (credentials "nobody" "password123") world0) =
    [ CallDbGet "SELECT * FROM users WHERE username = 'nobody'" ] /\
  (forall s h,
     ~ In (CallCompare s h)
          (calls (@post_login Reference.platform cfg
                    (credentials "nobody" "password123") world0))).
Proof.
  split; [reflexivity | ].
  apply (@absent_user_skips_hash_comparison Reference.platform cfg
           (credentials "nobody" "password123") world0).
  reflexivity.
Defined.

Lemma responses_expose_hash_and_stack_witness :
  out (@post_login Reference.platform cfg (credentials "admin" "password123") world0) =
    Sent admin_login_response /\
  status admin_login_response = 200 /\
  (exists row,
     @sqlite_get Reference.platform
       (login_query (prop (credentials "admin" "password123") "username")) (db world0) =
       inr (Some row) /\
     keys (prop (body admin_login_response) "user") =
       [ "id"; "username"; "email"; "role"; "password" ] /\
     prop (prop (body admin_login_response) "user") "password" =
       prop (JObj row) "password") /\
  out (@app Reference.platform cfg GetUsers
         {| req_headers := ∅; req_body := inl malformed |} world0) =
    Sent {| status := 500;
            body := JObj [ ("error", JStr (err_message malformed));
                           ("stack", JStr (err_stack malformed)) ] |}.
Proof.
  split; [reflexivity | ]. split; [reflexivity | ].
  apply (@responses_expose_hash_and_stack Reference.platform cfg
           (credentials "admin" "password123") world0 admin_login_response
           GetUsers ∅ malformed);
    reflexivity.
Defined.

(** The subject of [user1_token] is user 2, of role [user]; the task of
    [world1] belongs to user 1. *)
Lemma user1_does_not_own_admin_task :
  out (@post_login Reference.platform cfg (credentials "user1" "password123") world1) =
    Sent (login_success (Reference.compact user1_token) (JObj user1_row)) /\
  lookup_field "id" (jwt_claims user1_token) = JNum 2 /\
  lookup_field "role" (jwt_claims user1_token) = JStr "user" /\
  tasks (db world1) = [ admin_task ] /\
  t_user_id admin_task = JNum 1.
Proof. repeat split. Qed.

Lemma task_served_without_ownership_check_witness :
  find (fun t => @rowid_matches Reference.platform "1" (t_id t)) (tasks (db world1)) =
    Some admin_task /\
  out (@app Reference.platform cfg (GetTask "1")
         (with_bearer (Reference.compact user1_token) empty_body) world1) =
    Sent {| status := 200; body := @task_object Reference.platform admin_task |}.
Proof.
  split; [reflexivity | ].
  apply (@task_served_without_ownership_check Reference.platform cfg
           {[ "authorization" := "Bearer " +:+ Reference.compact user1_token ]}
           empty_body "1" world1 admin_task).
  reflexivity.
Defined.

Lemma token_expiry_never_checked_witness :
  @sqlite_get Reference.platform
    (login_query (prop (credentials "user1" "password123") "username")) (db world0) =
    inr (Some user1_row) /\
  @compareSync Reference.platform
    (prop (credentials "user1" "password123") "password")
    (prop (JObj user1_row) "password") = inr true /\
  out (@post_login Reference.platform cfg (credentials "user1" "password123") world0) =
    Sent (login_success (Reference.compact user1_token) (JObj user1_row)) /\
  jwt_claims user1_token =
    [ ("id", JNum 2); ("username", JStr "user1"); ("role", JStr "user");
      ("iat", JNum 1700000000); ("exp", JNum 1700086400) ] /\
  clock_ms world_late / 1000 = 1700086401 /\
  out (@app Reference.platform cfg GetUsers
         (with_bearer (Reference.compact user1_token) empty_body) world_late) =
    Sent {| status := 200; body := JArr (map user_columns (users (db world0))) |}.
Proof.
  split; [reflexivity | ]. split; [reflexivity | ].
  destruct (@token_expiry_never_checked Reference.platform cfg
              (credentials "user1" "password123") world0 user1_row
              eq_refl eq_refl) as (H1 & H2 & H3).
  split; [exact H1 | ]. split; [exact H2 | ]. split; [reflexivity | ].
  exact (H3 (clock_ms world_late) empty_body).
Defined.

(** ** Properties of the whole server *)

Section Machine.
Context `{P : Platform} `{H : Host}.
Variable cfg : config.

Lemma numbered_snoc ts : forall from t,
  numbered from (ts ++ [t]) =
  numbered from ts && Z.eqb (t_id t) (from + Z.of_nat (length ts)).
Proof.
  induction ts as [ | t0 ts IH]; intros from t; simpl.
  - rewrite Z.add_0_r. apply andb_true_r.
  - rewrite IH, <- andb_assoc. do 3 f_equal. lia.
Qed.

(** In a numbered table the row of id [n] is the [n - from]-th one. *)
Lemma numbered_find ts : forall from n,
  numbered from ts = true ->
  find (fun t => Z.eqb n (t_id t)) ts =
  if Z.leb from n then ts !! Z.to_nat (n - from) else None.
Proof.
  induction ts as [ | t ts IH]; intros from n Hn; simpl in *.
  - destruct (Z.leb from n); reflexivity.
  - apply andb_true_iff in Hn as [Ht Hn]. apply Z.eqb_eq in Ht.
    rewrite Ht. destruct (Z.eqb_spec n from) as [-> | Hne].
    + rewrite Z.leb_refl, Z.sub_diag. reflexivity.
    + rewrite (IH _ _ Hn).
      destruct (Z.leb_spec from n), (Z.leb_spec (from + 1) n); try lia;
        [ | reflexivity ].
      replace (Z.to_nat (n - from)) with (S (Z.to_nat (n - (from + 1)))) by lia.
      reflexivity.
Qed.

(** What a request leaves in the database. *)
Lemma serve_db r req m :
  db (m_world (snd (serve cfg r req m))) =
  match r, req_body req with
  | Covered PostTasks, inr reqbody =>
      {| users := users (db (m_world m));
         tasks := tasks (db (m_world m)) ++ [ task_of_body reqbody (m_world m) ];
         tasks_seq := tasks_seq (db (m_world m)) + 1 |}
  | Covered (GetAdminDeleteUser id), inr _ =>
      {| users := filter (fun u => negb (rowid_matches id (u_id u)))
                    (users (db (m_world m)));
         tasks := tasks (db (m_world m));
         tasks_seq := tasks_seq (db (m_world m)) |}
  | _, _ => db (m_world m)
  end.
Proof.
  destruct r as [ [ | | id | | id] | query | | | ];
    unfold serve, app; destruct (req_body req) as [err | reqbody];
    try reflexivity; simpl.
  - now rewrite post_login_after.
  - unfold get_task. destruct (db_get_task id _) as [e | [t | ]]; reflexivity.
  - unfold get_tasks_search. destruct (sqlite_all _ _); reflexivity.
  - unfold post_export. destruct (child_exec _ _) as [[e | ] h']; reflexivity.
Qed.


Lemma serve_keeps_users r req m :
  users (db (m_world (snd (serve cfg r req m)))) `sublist_of`
  users (db (m_world m)).
Proof.
  rewrite serve_db.
  destruct r as [ [ | | id | | id] | query | | | ];
    destruct (req_body req) as [err | reqbody]; try reflexivity.
  simpl. apply sublist_filter.
Qed.

Lemma serve_keeps_tasks r req m :
  tasks (db (m_world m)) `prefix_of`
  tasks (db (m_world (snd (serve cfg r req m)))).
Proof.
  rewrite serve_db.
  destruct r as [ [ | | id | | id] | query | | | ];
    destruct (req_body req) as [err | reqbody]; try reflexivity.
  simpl. now apply prefix_app_r.
Qed.

(** An invariant of [serve] that does not depend on the clock holds all
    along a run. *)
Lemma run_invariant (I : database -> Prop) :
  (forall r req m, I (db (m_world m)) -> I (db (m_world (snd (serve cfg r req m))))) ->
  forall arrivals m,
    I (db (m_world m)) -> I (db (m_world (fst (run cfg m arrivals)))).
Proof.
  intros Hstep. induction arrivals as [ | a rest IH]; intros m Hm; simpl.
  - exact Hm.
  - unfold arrive.
    pose proof (Hstep (on a) (carrying a)
      {| m_world := {| db := db (m_world m); clock_ms := at_ms a |};
         m_host := m_host m |} Hm) as Hnext.
    destruct (serve cfg (on a) (carrying a) _) as [[resp | e] m']; simpl in *.
    + now apply IH.
    + exact Hnext.
Qed.


(** X2: no sequence of requests adds a user or alters one: the rows of
    [users] are always rows of the seed, in the order of the seed, so
    the listing never shows anything but seeded users. *)
Theorem users_only_shrink h t0 arrivals :
  let m := fst (run cfg (boot h t0) arrivals) in
  users (db (m_world m)) `sublist_of` seed_users /\
  (forall record,
     out (get_users (m_world m)) = Sent (res_json (JArr record)) ->
     forall r, In r record -> In r (map user_columns seed_users)).
Proof.
  intros m.
  assert (Hs : users (db (m_world m)) `sublist_of` seed_users).
  { apply (run_invariant (fun d => users d `sublist_of` seed_users)).
    - intros r req m0 Hm0. etransitivity; [apply serve_keeps_users | exact Hm0].
    - reflexivity. }
  split; [exact Hs | ].
  intros record Hr r Hin. unfold get_users in Hr. simpl in Hr.
  inversion Hr; subst record. apply in_map_iff in Hin as (u & <- & Hu).
  apply in_map. apply list_elem_of_In. eapply elem_of_sublist; [ | exact Hs].
  now apply list_elem_of_In.
Qed.

(** X3: no sequence of requests removes or changes a task: the table at
    any moment is a prefix of the table at any later moment. *)
Theorem tasks_only_grow m arrivals :
  tasks (db (m_world m)) `prefix_of`
  tasks (db (m_world (fst (run cfg m arrivals)))).
Proof.
  revert m. induction arrivals as [ | a rest IH]; intros m; simpl.
  - reflexivity.
  - unfold arrive.
    pose proof (serve_keeps_tasks (on a) (carrying a)
      {| m_world := {| db := db (m_world m); clock_ms := at_ms a |};
         m_host := m_host m |}) as Hstep.
    destruct (serve cfg (on a) (carrying a) _) as [[resp | e] m']; simpl in *.
    + etransitivity; [exact Hstep | apply IH].
    + exact Hstep.
Qed.

End Machine.

Section Effects.
Context `{P : Platform} `{H : Host}.
Variable cfg : config.

(** X4: only the task creation and the user deletion routes write to
    the database: a request to any other route leaves the tables as they
    were; and only the export route touches the host: a request to any
    other route, the two writing ones included, leaves it as it was. *)
Theorem other_routes_do_not_write r req m :
  (writes r = false ->
   db (m_world (snd (serve cfg r req m))) = db (m_world m)) /\
  (r <> PostExport -> m_host (snd (serve cfg r req m)) = m_host m).
Proof.
  split.
  - intros Hw. rewrite (serve_db cfg).
    destruct r as [ [ | | id | | id] | query | | | ]; try discriminate Hw;
      destruct (req_body req); reflexivity.
  - intros Hr. destruct r as [ ep | query | | | ]; try contradiction;
      try reflexivity; unfold serve; destruct (req_body req); try reflexivity.
    unfold get_tasks_search. destruct (sqlite_all _ _); reflexivity.
Qed.

(** X5: on every route, a request whose body cannot be read is answered
    by the error middleware (500, message and stack) and nothing else
    happens: the database and the host are as before. *)
Theorem unreadable_body_stops_every_route r headers err m :
  serve cfg r {| req_headers := headers; req_body := inl err |} m =
  (Sent {| status := 500;
           body := JObj [ ("error", JStr (err_message err));
                          ("stack", JStr (err_stack err)) ] |}, m).
Proof.
  destruct m as [w h]. destruct r as [ ep | query | | | ]; reflexivity.
Qed.

End Effects.

Section Tasks.
Context `{P : Platform}.

Lemma get_task_numbered id w :
  tasks_numbered (db w) = true ->
  out (get_task id w) =
  match sqlite_integer_of_text id with
  | Some n =>
      match (if Z.leb 1 n then tasks (db w) !! Z.to_nat (n - 1) else None) with
      | Some t => Sent {| status := 200; body := task_object t |}
      | None => Sent {| status := 404; body := JObj [ ("error", JStr "Task not found") ] |}
      end
  | None => Sent {| status := 404; body := JObj [ ("error", JStr "Task not found") ] |}
  end.
Proof.
  intros Hn. unfold tasks_numbered in Hn. apply andb_true_iff in Hn as [Hn _].
  unfold get_task, db_get_task, rowid_matches.
  destruct (sqlite_integer_of_text id) as [n | ].
  - rewrite (numbered_find _ 1 n Hn).
    destruct (if Z.leb 1 n then _ else _) as [t | ]; reflexivity.
  - replace (find (fun _ : task_row => false) (tasks (db w))) with (@None task_row);
      [reflexivity | ].
    clear Hn. induction (tasks (db w)); simpl; auto.
Qed.

(** X6: when the ids of the tasks are 1..n (as they always are, X1),
    the task route answers 200 with the [k]-th task created exactly for
    the id texts that stand for an integer [k] between 1 and n; for
    every other id (not an integer, zero, negative, beyond n) it answers
    404 "Task not found". *)
Theorem get_task_serves_exactly_the_created_ids id w :
  tasks_numbered (db w) = true ->
  out (get_task id w) =
  match sqlite_integer_of_text id with
  | Some k =>
      match (if Z.leb 1 k then tasks (db w) !! Z.to_nat (k - 1) else None) with
      | Some t => Sent {| status := 200; body := task_object t |}
      | None => Sent {| status := 404; body := JObj [ ("error", JStr "Task not found") ] |}
      end
  | None => Sent {| status := 404; body := JObj [ ("error", JStr "Task not found") ] |}
  end.
Proof. apply get_task_numbered. Qed.

Lemma post_tasks_after reqbody w :
  after (post_tasks reqbody w) =
  {| db := {| users := users (db w);
              tasks := tasks (db w) ++ [ task_of_body reqbody w ];
              tasks_seq := tasks_seq (db w) + 1 |};
     clock_ms := clock_ms w |}.
Proof. reflexivity. Qed.

(** X7: a task that has just been created is what the task route sends
    back for the id the creation was answered: the id, the four fields
    of the body as their columns store them ([completed] defaulting to
    0) and the time of creation. *)
Theorem created_task_can_be_fetched reqbody w id :
  tasks_numbered (db w) = true ->
  sqlite_integer_of_text id = Some (tasks_seq (db w) + 1) ->
  out (post_tasks reqbody w) =
    Sent {| status := 200;
            body := JObj [ ("id", JNum (tasks_seq (db w) + 1));
                           ("message", JStr "Task created") ] |} /\
  out (get_task id (after (post_tasks reqbody w))) =
    Sent {| status := 200;
            body := JObj [ ("id", JNum (tasks_seq (db w) + 1));
                           ("user_id",
                            sqlite_stored INTEGER (prop reqbody "user_id"));
                           ("title", sqlite_stored TEXT (prop reqbody "title"));
                           ("description",
                            sqlite_stored TEXT (prop reqbody "description"));
                           ("completed",
                            sqlite_stored BOOLEAN
                              (js_or (prop reqbody "completed") (JNum 0)));
                           ("created_at",
                            JStr (sqlite_datetime (clock_ms w / 1000))) ] |}.
Proof.
  intros Hn Hid. split; [reflexivity | ].
  pose proof Hn as Hn0.
  unfold tasks_numbered in Hn. apply andb_true_iff in Hn as [Hn Hs].
  apply Z.eqb_eq in Hs.
  rewrite get_task_numbered.
  - rewrite Hid, post_tasks_after. cbn [db tasks].
    replace (Z.leb 1 (tasks_seq (db w) + 1)) with true by (symmetry; apply Z.leb_le; lia).
    replace (Z.to_nat (tasks_seq (db w) + 1 - 1)) with (length (tasks (db w))) by lia.
    rewrite list_lookup_middle by reflexivity. reflexivity.
  - rewrite post_tasks_after. unfold tasks_numbered. cbn [db tasks tasks_seq].
    rewrite numbered_snoc, Hn, length_app. simpl.
    apply andb_true_iff; split; apply Z.eqb_eq; lia.
Qed.

(** X8: the task creation route reads four fields of the body and
    nothing else: two bodies that agree on user_id, title, description
    and completed have the same effect and the same answer, so a caller
    cannot choose the id or the creation time of a task. *)
Theorem post_tasks_reads_four_fields b1 b2 w :
  (forall k, In k [ "user_id"; "title"; "description"; "completed" ] ->
             prop b1 k = prop b2 k) ->
  post_tasks b1 w = post_tasks b2 w /\
  t_id (task_of_body b1 w) = tasks_seq (db w) + 1 /\
  t_created_at (task_of_body b1 w) = clock_ms w / 1000.
Proof.
  intros Hk. split; [ | split; reflexivity ].
  unfold post_tasks.
  rewrite (Hk "user_id"), (Hk "title"), (Hk "description"), (Hk "completed");
    simpl; auto 6.
Qed.

End Tasks.

Section Users.
Context `{P : Platform}.

Lemma delete_user_after id w :
  after (get_admin_delete_user id w) =
  {| db := {| users := filter (fun u => negb (rowid_matches id (u_id u))) (users (db w));
              tasks := tasks (db w);
              tasks_seq := tasks_seq (db w) |};
     clock_ms := clock_ms w |}.
Proof. reflexivity. Qed.

(** X9: after the deletion route has run for an id that stands for the
    integer [n], the listing shows the users it showed before except
    those of id [n], in the same order; the tasks are untouched, those
    of the deleted user included, and are served as before. *)
Theorem deleted_user_leaves_the_listing id n w :
  sqlite_integer_of_text id = Some n ->
  let w' := after (get_admin_delete_user id w) in
  out (get_users w') =
    Sent {| status := 200;
            body := JArr (map user_columns
                            (filter (fun u => u_id u <> n) (users (db w)))) |} /\
  (forall u, In u (users (db w')) <-> In u (users (db w)) /\ u_id u <> n) /\
  tasks (db w') = tasks (db w) /\
  (forall id', out (get_task id' w') = out (get_task id' w)).
Proof.
  intros Hid w'.
  assert (Hf : users (db w') = filter (fun u => u_id u <> n) (users (db w))).
  { unfold w'. rewrite delete_user_after. cbn [db users].
    apply list_filter_iff. intros u. unfold rowid_matches. rewrite Hid.
    destruct (Z.eqb_spec n (u_id u)); simpl; split; intros; try congruence; tauto. }
  split; [ | split; [ | split ] ].
  - unfold get_users, db_all_users. rewrite Hf. reflexivity.
  - intros u. rewrite Hf, <- !list_elem_of_In, list_elem_of_filter. tauto.
  - reflexivity.
  - intros id'. unfold get_task, db_get_task, w'.
    rewrite delete_user_after. cbn [db tasks].
    destruct (find _ _); reflexivity.
Qed.

(** X10: the deletion route answers 200 "User deleted" whether or not a
    row was deleted: running it again changes nothing more and is
    answered the same, and for an id that is not an integer no row is
    deleted at all. *)
Theorem delete_user_is_idempotent id w :
  get_admin_delete_user id (after (get_admin_delete_user id w)) =
    get_admin_delete_user id w /\
  out (get_admin_delete_user id w) =
    Sent {| status := 200; body := JObj [ ("message", JStr "User deleted") ] |} /\
  (sqlite_integer_of_text id = None ->
   after (get_admin_delete_user id w) = w).
Proof.
  split; [ | split; [reflexivity | ] ].
  - unfold get_admin_delete_user at 1 3. unfold db_run_delete_user.
    rewrite delete_user_after. cbn [db users tasks tasks_seq clock_ms].
    do 3 f_equal.
    rewrite list_filter_filter. apply list_filter_iff. tauto.
  - intros Hid. rewrite delete_user_after. destruct w as [[us ts sq] clock].
    cbn [db users tasks tasks_seq clock_ms]. do 2 f_equal.
    unfold rowid_matches. rewrite Hid. simpl.
    induction us as [ | u us IH]; [reflexivity | ].
    rewrite filter_cons_True by exact I. now rewrite IH.
Qed.

End Users.

Section Tokens.
Context `{P : Platform}.

(** X11: the login route hands out a token only after bcrypt has
    accepted the submitted password, a string, against the [password]
    column, a string, of the row the query returned; every response with
    a [token] field has status 200. *)
Theorem token_requires_bcrypt_match cfg reqbody w r :
  out (post_login cfg reqbody w) = Sent r ->
  has_field (body r) "token" = true ->
  status r = 200 /\
  exists row plain h,
    sqlite_get (login_query (prop reqbody "username")) (db w) = inr (Some row) /\
    prop reqbody "password" = JStr plain /\
    lookup_field "password" row = JStr h /\
    bcrypt_compare plain h = true.
Proof.
  unfold post_login.
  destruct (sqlite_get _ _) as [e | [row | ]] eqn:E; simpl.
  - intros Hr; inversion Hr; subst; simpl; discriminate.
  - destruct (compareSync _ _) as [thrown | [ | ]] eqn:C; simpl;
      intros Hr; inversion Hr; subst; simpl; try discriminate.
    intros _. split; [reflexivity | ].
    unfold compareSync in C. simpl in C.
    destruct (prop reqbody "password") as [ | | b | n | plain | fs | xs] eqn:Hp;
      try discriminate C.
    destruct (lookup_field "password" row) as [ | | b' | n' | h | fs' | xs'] eqn:Hh;
      try discriminate C.
    exists row, plain, h.
    split; [reflexivity | ]. split; [reflexivity | ]. split; [exact Hh | ].
    destruct (bcrypt_throws plain h); [discriminate C | now inversion C].
  - intros Hr; inversion Hr; subst; simpl; discriminate.
Qed.

(** X12: a server started without a signing key in its environment
    signs with the literal of the source: the token of every successful
    login is the one anybody can compute from the id, username and role
    of the row, the time, and "super-secret-key-12345". *)
Theorem default_key_signs_tokens (env : gmap string string) reqbody w r :
  env !! "JWT_SECRET" = None \/ env !! "JWT_SECRET" = Some EmptyString ->
  out (post_login (load_config env) reqbody w) = Sent r ->
  status r = 200 ->
  exists row,
    sqlite_get (login_query (prop reqbody "username")) (db w) = inr (Some row) /\
    prop (body r) "token" =
      JStr (jws_compact
              (issue_token
                 [ ("id", lookup_field "id" row);
                   ("username", lookup_field "username" row);
                   ("role", lookup_field "role" row) ]
                 "super-secret-key-12345" (24 * 60 * 60) (clock_ms w))).
Proof.
  intros Henv Hr Hs.
  destruct (post_login_200 _ _ _ _ Hr Hs) as (row & E & _ & ->).
  exists row. split; [exact E | ].
  simpl. unfold jwt_sign. do 3 f_equal.
  destruct Henv as [-> | ->]; reflexivity.
Qed.

(** X13: the two users of the seed log in with "password123": when the
    query for the username returns the seeded row, the answer is 200
    with a token and the columns of that row. *)
Theorem seeded_users_log_in cfg u w :
  In u seed_users ->
  sqlite_get (login_query (JStr (u_username u))) (db w) =
    inr (Some (Reference.user_fields u)) ->
  exists token,
    out (post_login cfg (Scenario.credentials (u_username u) "password123") w) =
    Sent {| status := 200;
            body := JObj [ ("token", JStr token);
                           ("user",
                            JObj [ ("id", JNum (u_id u));
                                   ("username", JStr (u_username u));
                                   ("email", JStr (u_email u));
                                   ("role", JStr (u_role u));
                                   ("password", JStr seed_hash) ]) ] |}.
Proof.
  intros Hu E.
  assert (Hp : u_password u = seed_hash).
  { destruct Hu as [<- | [<- | []]]; reflexivity. }
  eexists.
  rewrite (post_login_match cfg (Scenario.credentials (u_username u) "password123")
             w (Reference.user_fields u)).
  - unfold login_success, res_json. simpl. rewrite Hp. reflexivity.
  - exact E.
  - simpl. rewrite Hp, seed_hash_valid, seed_hash_ok. reflexivity.
Qed.

End Tokens.

(** ** The whole server on concrete requests *)

Lemma other_routes_do_not_write_witness :
  writes (Covered PostLogin) = false /\
  db (m_world (snd (@serve Reference.platform ReferenceHost.host cfg
                      (Covered PostLogin) (bare (credentials "admin" "password123"))
                      (@boot Reference.platform ReferenceHost.host [] 1700000000123)))) =
    @initial_db Reference.platform /\
  Covered PostTasks <> PostExport /\
  @m_host ReferenceHost.host
    (snd (@serve Reference.platform ReferenceHost.host cfg
            (Covered PostTasks) (bare admin_task_body)
            (@boot Reference.platform ReferenceHost.host [] 1700000000123))) = [] /\
  Covered (GetAdminDeleteUser "2") <> PostExport /\
  @m_host ReferenceHost.host
    (snd (@serve Reference.platform ReferenceHost.host cfg
            (Covered (GetAdminDeleteUser "2")) (bare empty_body)
            (@boot Reference.platform ReferenceHost.host [] 1700000000123))) = [].
Proof.
  split; [reflexivity | ].
  split.
  { apply (@other_routes_do_not_write Reference.platform ReferenceHost.host cfg
             (Covered PostLogin) (bare (credentials "admin" "password123"))
             (@boot Reference.platform ReferenceHost.host [] 1700000000123)).
    reflexivity. }
  split; [discriminate | ].
  split.
  { apply (@other_routes_do_not_write Reference.platform ReferenceHost.host cfg
             (Covered PostTasks) (bare admin_task_body)
             (@boot Reference.platform ReferenceHost.host [] 1700000000123)).
    discriminate. }
  split; [discriminate | ].
  apply (@other_routes_do_not_write Reference.platform ReferenceHost.host cfg
           (Covered (GetAdminDeleteUser "2")) (bare empty_body)
           (@boot Reference.platform ReferenceHost.host [] 1700000000123)).
  discriminate.
Defined.


Lemma get_task_serves_exactly_the_created_ids_witness :
  tasks_numbered (db world1) = true /\
  out (@get_task Reference.platform "1" world1) =
    Sent {| status := 200; body := @task_object Reference.platform admin_task |} /\
  out (@get_task Reference.platform "2" world1) =
    Sent {| status := 404; body := JObj [ ("error", JStr "Task not found") ] |} /\
  out (@get_task Reference.platform "0" world1) =
    Sent {| status := 404; body := JObj [ ("error", JStr "Task not found") ] |} /\
  out (@get_task Reference.platform "search" world1) =
    Sent {| status := 404; body := JObj [ ("error", JStr "Task not found") ] |}.
Proof.
  split; [reflexivity | ].
  split; [exact (@get_task_serves_exactly_the_created_ids Reference.platform "1" world1 eq_refl) | ].
  split; [exact (@get_task_serves_exactly_the_created_ids Reference.platform "2" world1 eq_refl) | ].
  split; [exact (@get_task_serves_exactly_the_created_ids Reference.platform "0" world1 eq_refl) | ].
  exact (@get_task_serves_exactly_the_created_ids Reference.platform "search" world1 eq_refl).
Defined.

Lemma created_task_can_be_fetched_witness :
  tasks_numbered (db world1) = true /\
  @sqlite_integer_of_text Reference.platform "2" = Some (tasks_seq (db world1) + 1) /\
  out (@post_tasks Reference.platform
         (JObj [ ("user_id", JStr "7"); ("title", JNum 5); ("completed", JBool true) ])
         world1) =
    Sent {| status := 200;
            body := JObj [ ("id", JNum 2); ("message", JStr "Task created") ] |} /\
  out (@get_task Reference.platform "2"
         (after (@post_tasks Reference.platform
                   (JObj [ ("user_id", JStr "7"); ("title", JNum 5);
                           ("completed", JBool true) ])
                   world1))) =
    Sent {| status := 200;
            body := JObj [ ("id", JNum 2); ("user_id", JNum 7);
                           ("title", JStr "5"); ("description", JNull);
                           ("completed", JNum 1);
                           ("created_at", JStr "2023-11-14 22:13:20") ] |}.
Proof.
  split; [reflexivity | ]. split; [reflexivity | ].
  apply (@created_task_can_be_fetched Reference.platform
           (JObj [ ("user_id", JStr "7"); ("title", JNum 5); ("completed", JBool true) ])
           world1 "2"); reflexivity.
Defined.

Lemma post_tasks_reads_four_fields_witness :
  (forall k, In k [ "user_id"; "title"; "description"; "completed" ] ->
     prop admin_task_body k =
     prop (JObj [ ("id", JNum 99); ("user_id", JNum 1); ("title", JStr "rotate keys");
                  ("created_at", JStr "1999-12-31 00:00:00") ]) k) /\
  @post_tasks Reference.platform admin_task_body world0 =
  @post_tasks Reference.platform
    (JObj [ ("id", JNum 99); ("user_id", JNum 1); ("title", JStr "rotate keys");
            ("created_at", JStr "1999-12-31 00:00:00") ]) world0 /\
  t_id (@task_of_body Reference.platform admin_task_body world0) = 1 /\
  t_created_at (@task_of_body Reference.platform admin_task_body world0) = 1700000000.
Proof.
  assert (Hk : forall k, In k [ "user_id"; "title"; "description"; "completed" ] ->
     prop admin_task_body k =
     prop (JObj [ ("id", JNum 99); ("user_id", JNum 1); ("title", JStr "rotate keys");
                  ("created_at", JStr "1999-12-31 00:00:00") ]) k).
  { intros k [<- | [<- | [<- | [<- | []]]]]; reflexivity. }
  split; [exact Hk | ].
  exact (@post_tasks_reads_four_fields Reference.platform admin_task_body _ world0 Hk).
Defined.

Lemma deleted_user_leaves_the_listing_witness :
  @sqlite_integer_of_text Reference.platform "2" = Some 2 /\
  out (get_users (after (@get_admin_delete_user Reference.platform "2" world1))) =
    Sent {| status := 200;
            body := JArr [ JObj [ ("id", JNum 1); ("username", JStr "admin");
                                  ("email", JStr "admin@example.com");
                                  ("role", JStr "admin") ] ] |} /\
  tasks (db (after (@get_admin_delete_user Reference.platform "2" world1))) = [ admin_task ].
Proof.
  split; [reflexivity | ].
  destruct (@deleted_user_leaves_the_listing Reference.platform "2" 2 world1 eq_refl)
    as (Hl & _ & Ht & _).
  split; [exact Hl | exact Ht].
Defined.

Lemma token_requires_bcrypt_match_witness :
  out (@post_login Reference.platform cfg (credentials "admin" "password123") world0) =
    Sent admin_login_response /\
  has_field (body admin_login_response) "token" = true /\
  status admin_login_response = 200 /\
  exists row plain h,
    @sqlite_get Reference.platform
      (login_query (prop (credentials "admin" "password123") "username")) (db world0) =
      inr (Some row) /\
    prop (credentials "admin" "password123") "password" = JStr plain /\
    lookup_field "password" row = JStr h /\
    @bcrypt_compare Reference.platform plain h = true.
Proof.
  split; [reflexivity | ]. split; [reflexivity | ].
  apply (@token_requires_bcrypt_match Reference.platform cfg
           (credentials "admin" "password123") world0 admin_login_response);
    reflexivity.
Defined.

Lemma default_key_signs_tokens_witness :
  (production_env !! "JWT_SECRET" = None \/
   production_env !! "JWT_SECRET" = Some EmptyString) /\
  out (@post_login Reference.platform (load_config production_env)
         (credentials "admin" "password123") world0) = Sent admin_login_response /\
  status admin_login_response = 200 /\
  exists row,
    @sqlite_get Reference.platform
      (login_query (prop (credentials "admin" "password123") "username")) (db world0) =
      inr (Some row) /\
    prop (body admin_login_response) "token" =
      JStr (Reference.compact
              (@issue_token Reference.platform
                 [ ("id", lookup_field "id" row);
                   ("username", lookup_field "username" row);
                   ("role", lookup_field "role" row) ]
                 "super-secret-key-12345" (24 * 60 * 60) (clock_ms world0))).
Proof.
  split; [left; reflexivity | ]. split; [reflexivity | ]. split; [reflexivity | ].
  apply (@default_key_signs_tokens Reference.platform production_env
           (credentials "admin" "password123") world0 admin_login_response);
    [left; reflexivity | reflexivity | reflexivity].
Defined.

Lemma seeded_users_log_in_witness :
  In {| u_id := 2; u_username := "user1"; u_password := Reference.hash_of "password123";
        u_email := "user1@example.com"; u_role := "user" |}
     (@seed_users Reference.platform) /\
  @sqlite_get Reference.platform (login_query (JStr "user1")) (db world1) =
    inr (Some user1_row) /\
  exists token,
    out (@post_login Reference.platform cfg (credentials "user1" "password123") world1) =
    Sent {| status := 200;
            body := JObj [ ("token", JStr token);
                           ("user",
                            JObj [ ("id", JNum 2); ("username", JStr "user1");
                                   ("email", JStr "user1@example.com");
                                   ("role", JStr "user");
                                   ("password", JStr (Reference.hash_of "password123")) ]) ] |}.
Proof.
  split; [right; left; reflexivity | ]. split; [reflexivity | ].
  apply (@seeded_users_log_in Reference.platform cfg
           {| u_id := 2; u_username := "user1";
              u_password := Reference.hash_of "password123";
              u_email := "user1@example.com"; u_role := "user" |} world1);
    [right; left; reflexivity | reflexivity].
Defined.

(** ** Exceptions and the shell *)

Lemma append_assoc (a b c : string) : (a +:+ b) +:+ c = a +:+ (b +:+ c).
Proof.
  induction a as [ | x a IH]; [reflexivity | ].
  change (String x ((a +:+ b) +:+ c) = String x (a +:+ (b +:+ c))).
  now f_equal.
Qed.

Section Edges.
Context `{P : Platform} `{H : Host}.

(** When [compareSync] throws, and what. *)
Lemma compareSync_throws s h msg :
  compareSync s h = inl msg <->
  ((typeof s <> "string" \/ typeof h <> "string") /\
   msg = "Illegal arguments: " +:+ typeof s +:+ ", " +:+ typeof h) \/
  (exists plain hash,
     s = JStr plain /\ h = JStr hash /\ bcrypt_throws plain hash = Some msg).
Proof.
  unfold compareSync.
  destruct s as [ | | b | n | plain | fs | xs];
    destruct h as [ | | b' | n' | hash | fs' | xs']; simpl; split;
    try (intros Hm; inversion Hm; left; split;
         [ (left; discriminate) || (right; discriminate) | reflexivity ]);
    try (intros [[_ ->] | (p0 & h0 & Hs & Hh & _)];
         [reflexivity | discriminate Hs || discriminate Hh]).
  - destruct (bcrypt_throws plain hash) as [thrown | ] eqn:T; [ | discriminate].
    intros Hm; inversion Hm; subst msg. right. exists plain, hash. auto.
  - intros [[[Hn | Hn] _] | (p0 & h0 & Hs & Hh & T)]; try now elim Hn.
    inversion Hs; inversion Hh; subst p0 h0. now rewrite T.
Qed.

(** X14: for a username that is a string, the login route ends in an
    exception, and sends nothing, exactly when the query returned a row
    and [bcrypt.compareSync] throws on the submitted password and the
    [password] column of the row: one of the two is not a string (a
    body without password, a number, null), with a message naming the
    two types, or both are strings and the library itself throws on
    them, with its message. *)
Theorem login_throws_exactly_when_compare_throws cfg reqbody w u e :
  prop reqbody "username" = JStr u ->
  (out (post_login cfg reqbody w) = Uncaught e <->
   exists row,
     sqlite_get (login_query (JStr u)) (db w) = inr (Some row) /\
     (((typeof (prop reqbody "password") <> "string" \/
        typeof (lookup_field "password" row) <> "string") /\
       e = "Illegal arguments: " +:+ typeof (prop reqbody "password") +:+ ", " +:+
           typeof (lookup_field "password" row)) \/
      (exists plain hash,
         prop reqbody "password" = JStr plain /\
         lookup_field "password" row = JStr hash /\
         bcrypt_throws plain hash = Some e))).
Proof.
  intros Hu. unfold post_login. rewrite Hu.
  destruct (sqlite_get _ _) as [err | [row | ]] eqn:E; simpl.
  - split; [discriminate | ]. intros (row & Hrow & _). discriminate Hrow.
  - destruct (compareSync _ _) as [msg | b] eqn:C.
    + simpl. split.
      * intros Hm; inversion Hm; subst msg. exists row.
        split; [reflexivity | ]. now apply compareSync_throws.
      * intros (row' & Hrow & Hthrow). inversion Hrow; subst row'.
        apply compareSync_throws in Hthrow. simpl in C. congruence.
    + split.
      * destruct b; discriminate.
      * intros (row' & Hrow & Hthrow). inversion Hrow; subst row'.
        apply compareSync_throws in Hthrow. simpl in C. congruence.
  - split; [discriminate | ]. intros (row & Hrow & _). discriminate Hrow.
Qed.

(** X15: the export route gives the shell its fixed command followed by
    the text of the filename as it came, unquoted: what follows a prefix
    of the filename follows the command for that prefix on the line the
    shell runs.  The answer is 500 with the shell's message when the
    shell reports an error and 200 with the filename echoed otherwise;
    the database is not touched. *)
Theorem export_passes_filename_to_shell reqbody m f rest :
  prop reqbody "filename" = JStr (f +:+ rest) ->
  post_export reqbody m =
  (match fst (child_exec (export_command (JStr f) +:+ rest) (m_host m)) with
   | Some error =>
       Sent {| status := 500; body := JObj [ ("error", JStr (err_message error)) ] |}
   | None =>
       Sent {| status := 200;
               body := JObj [ ("message", JStr "Export completed");
                              ("filename", JStr (f +:+ rest)) ] |}
   end,
   {| m_world := m_world m;
      m_host := snd (child_exec (export_command (JStr f) +:+ rest) (m_host m)) |}).
Proof.
  intros Hf. unfold post_export. rewrite Hf.
  assert (Hc : export_command (JStr (f +:+ rest)) = export_command (JStr f) +:+ rest).
  { unfold export_command. cbn [to_string]. now rewrite !append_assoc. }
  rewrite Hc. destruct (child_exec _ _) as [[error | ] h']; reflexivity.
Qed.

End Edges.

Lemma export_passes_filename_to_shell_witness :
  prop (JObj [ ("filename", JStr "report.txt; cat /etc/passwd") ]) "filename" =
    JStr ("report.txt" +:+ "; cat /etc/passwd") /\
  @post_export ReferenceHost.host
    (JObj [ ("filename", JStr "report.txt; cat /etc/passwd") ])
    (@boot Reference.platform ReferenceHost.host [] 1700000000123) =
  (Sent {| status := 200;
           body := JObj [ ("message", JStr "Export completed");
                          ("filename", JStr "report.txt; cat /etc/passwd") ] |},
   @mk_machine ReferenceHost.host
     {| db := @initial_db Reference.platform; clock_ms := 1700000000123 |}
     [ export_command (JStr "report.txt") +:+ "; cat /etc/passwd" ]).
Proof.
  split; [reflexivity | ].
  exact (@export_passes_filename_to_shell ReferenceHost.host
           (JObj [ ("filename", JStr "report.txt; cat /etc/passwd") ])
           (@boot Reference.platform ReferenceHost.host [] 1700000000123)
           "report.txt" "; cat /etc/passwd" eq_refl).
Defined.

Lemma login_throws_exactly_when_compare_throws_witness :
  prop (JObj [ ("username", JStr "admin") ]) "username" = JStr "admin" /\
  (out (@post_login Reference.platform cfg (JObj [ ("username", JStr "admin") ]) world0) =
     Uncaught "Illegal arguments: undefined, string" <->
   exists row,
     @sqlite_get Reference.platform (login_query (JStr "admin")) (db world0) =
       inr (Some row) /\
     (((typeof (prop (JObj [ ("username", JStr "admin") ]) "password") <> "string" \/
        typeof (lookup_field "password" row) <> "string") /\
       "Illegal arguments: undefined, string" =
         "Illegal arguments: " +:+
         typeof (prop (JObj [ ("username", JStr "admin") ]) "password") +:+ ", " +:+
         typeof (lookup_field "password" row)) \/
      (exists plain hash,
         prop (JObj [ ("username", JStr "admin") ]) "password" = JStr plain /\
         lookup_field "password" row = JStr hash /\
         @bcrypt_throws Reference.platform plain hash =
           Some "Illegal arguments: undefined, string"))) /\
  out (@post_login Reference.platform cfg (JObj [ ("username", JStr "admin") ]) world0) =
    Uncaught "Illegal arguments: undefined, string".
Proof.
  split; [reflexivity | ].
  split; [ | reflexivity ].
  exact (@login_throws_exactly_when_compare_throws Reference.platform cfg
           (JObj [ ("username", JStr "admin") ]) world0 "admin"
           "Illegal arguments: undefined, string" eq_refl).
Defined.
